(** * Pi Lamp API: a shallow embedding of [raspberrypi/app.py]

    The program is a FastAPI application with four GET routes driving one
    gpiozero [LED] bound to GPIO17.  Handlers are embedded as computations in
    a state-and-exception monad over the value of the relay, the history of
    pin writes and sleeps, and the [BackgroundTasks] object that FastAPI
    injects into the request.

    Python's [int / int] is embedded as the exact quotient in [Q]; the
    rounding of that quotient to a double, and the magnitude limits of a
    double, are outside the model.  [time.sleep] is not part of the
    repository: the development is parametrised by it. *)

From Stdlib Require Import ZArith QArith String List Bool Lia.
Import ListNotations.

Local Open Scope string_scope.
Local Open Scope Z_scope.

(** ** Python values *)

(** The exceptions the modelled primitives can raise. *)
Inductive exn : Type :=
| ZeroDivisionError
| ValueError
| OverflowError.

(** Outcome of running a statement: normal return or a raised exception. *)
Inductive result (A : Type) : Type :=
| Ok (a : A)
| Raise (e : exn).

Arguments Ok {A} a.
Arguments Raise {A} e.

(** The values stored in the dict literals of the handlers. *)
Inductive pyval : Type :=
| PyStr (s : string)
| PyInt (n : Z)
| PyBool (b : bool).

(** A dict literal, in insertion order. *)
Definition dict : Type := list (string * pyval).

(** ** The world the handlers act on *)

(** Observable effects: [relay.on()], [relay.off()] and a completed
    [sleep(secs)]. *)
Inductive event : Type :=
| On
| Off
| Sleep (secs : Q).

(** A callable handed to [bg.add_task].  The only one in the program is the
    closure [_flash], which captures [duration] and [flashes]. *)
Inductive task : Type :=
| Flash (duration flashes : Z).

Record state : Type := mkState {
  relay : bool;          (* value of [relay = LED(17)]: [true] is pin high *)
  trace : list event;    (* pin writes and sleeps so far, oldest first *)
  bg : list task         (* tasks of the request's [BackgroundTasks] *)
}.

(** [LED(17)] starts with the pin low; nothing has happened yet. *)
Definition boot : state := mkState false [] [].

(** ** State-and-exception monad *)

Definition M (A : Type) : Type := state -> result A * state.

Definition ret {A : Type} (a : A) : M A := fun s => (Ok a, s).

Definition raise {A : Type} (e : exn) : M A := fun s => (Raise e, s).

Definition bind {A B : Type} (m : M A) (k : A -> M B) : M B :=
  fun s =>
    match m s with
    | (Ok a, s') => k a s'
    | (Raise e, s') => (Raise e, s')
    end.

Notation "x <- m ;; k" := (bind m (fun x => k))
  (at level 61, m at next level, right associativity).
Notation "m ;; k" := (bind m (fun _ => k))
  (at level 61, right associativity).

(** [for x in xs: body(x)]; an exception leaves the loop. *)
Fixpoint for_ {A : Type} (xs : list A) (body : A -> M unit) : M unit :=
  match xs with
  | [] => ret tt
  | x :: xs' => body x ;; for_ xs' body
  end.

(** [range(n)]: the integers [0 .. n-1], empty when [n <= 0]. *)
Definition range (n : Z) : list Z := map Z.of_nat (seq 0 (Z.to_nat n)).

(** [a / b] on two ints: [ZeroDivisionError] on a zero divisor, otherwise
    the quotient. *)
Definition truediv (a b : Z) : M Q :=
  if b =? 0 then raise ZeroDivisionError
  else ret (inject_Z a / inject_Z b)%Q.

(** ** gpiozero *)

Definition relay_on : M unit :=
  fun s => (Ok tt, mkState true (trace s ++ [On]) (bg s)).

Definition relay_off : M unit :=
  fun s => (Ok tt, mkState false (trace s ++ [Off]) (bg s)).

(** ** FastAPI *)

(** [bg.add_task(f)] appends to the task list of the injected object. *)
Definition add_task (t : task) : M unit :=
  fun s => (Ok tt, mkState (relay s) (trace s) (bg s ++ [t])).

(** An HTTP response: status code and, for a JSON body, its content. *)
Record response : Type := mkResponse {
  status_code : Z;
  body : option dict
}.

(** 4xx. *)
Definition is_client_error (r : response) : bool :=
  (400 <=? status_code r) && (status_code r <? 500).

(** A returned dict is sent as 200 with that JSON body; an exception
    escaping the handler becomes a 500 without one. *)
Definition respond (r : result dict) : response :=
  match r with
  | Ok d => mkResponse 200 (Some d)
  | Raise _ => mkResponse 500 None
  end.

(** The routes, with the query parameters the client supplied. *)
Inductive request : Type :=
| GET_lamp_on
| GET_lamp_off
| GET_lamp_flash (duration flashes : option Z)
| GET_health.

(** A parameter with a default value. *)
Definition param (default : Z) (given : option Z) : Z :=
  match given with
  | Some v => v
  | None => default
  end.

Section App.

(** [from time import sleep]: [time_sleep secs] is [None] when the call
    returns after suspending the caller, [Some e] when it raises [e]. *)
Variable time_sleep : Q -> option exn.

Definition sleep (secs : Q) : M unit :=
  match time_sleep secs with
  | Some e => raise e
  | None => fun s => (Ok tt, mkState (relay s) (trace s ++ [Sleep secs]) (bg s))
  end.

(** *** Handlers *)

Definition lamp_on : M dict :=
  relay_on ;;
  ret [("status", PyStr "on")].

Definition lamp_off : M dict :=
  relay_off ;;
  ret [("status", PyStr "off")].

(** Body of the loop in [_flash]. *)
Definition flash_cycle (duration flashes : Z) : M unit :=
  relay_on ;;
  (secs <- truediv duration (flashes * 2) ;; sleep secs) ;;
  relay_off ;;
  (secs <- truediv duration (flashes * 2) ;; sleep secs).

(** The closure defined inside [lamp_flash]. *)
Definition _flash (duration flashes : Z) : M unit :=
  for_ (range flashes) (fun _ => flash_cycle duration flashes).

Definition lamp_flash (duration flashes : Z) : M dict :=
  add_task (Flash duration flashes) ;;
  ret [("status", PyStr "flashing");
       ("duration", PyInt duration);
       ("flashes", PyInt flashes)].

Definition health : M dict :=
  ret [("ok", PyBool true)].

(** *** Routing and the request cycle *)

Definition app (r : request) : M dict :=
  match r with
  | GET_lamp_on => lamp_on
  | GET_lamp_off => lamp_off
  | GET_lamp_flash duration flashes =>
      lamp_flash (param 5 duration) (param 5 flashes)
  | GET_health => health
  end.

Definition run_task (t : task) : M unit :=
  match t with
  | Flash duration flashes => _flash duration flashes
  end.

(** The handler runs against a fresh [BackgroundTasks]; the response is
    built from what it returns. *)
Definition handle (r : request) (s : state) : response * state :=
  let (res, s') := app r (mkState (relay s) (trace s) []) in
  (respond res, s').

(** After the response has been sent the queued tasks run in order. *)
Definition background (s : state) : result unit * state :=
  for_ (bg s) run_task s.

Definition serve (r : request) (s : state) : response * (result unit * state) :=
  let (resp, s') := handle r s in
  (resp, background s').

End App.

(** [time.sleep] of CPython raises [ValueError] on a negative argument. *)
Definition cpython_sleep (secs : Q) : option exn :=
  if Qle_bool 0 secs then None else Some ValueError.

(** ** Vocabulary of the statements *)

(** Value of [duration / (flashes * 2)] when the divisor is not zero. *)
Definition half_cycle (duration flashes : Z) : Q :=
  (inject_Z duration / inject_Z (flashes * 2))%Q.

(** One iteration of the flash loop, as seen on the pin. *)
Definition cycle (secs : Q) : list event :=
  [On; Sleep secs; Off; Sleep secs].

Definition cycles (n : nat) (secs : Q) : list event :=
  concat (repeat (cycle secs) n).

(** The state [n] completed iterations later. *)
Definition flashed (n : nat) (secs : Q) (s : state) : state :=
  mkState (match n with O => relay s | S _ => false end)
          (trace s ++ cycles n secs)
          (bg s).

Definition is_pin_write (e : event) : bool :=
  match e with
  | On | Off => true
  | Sleep _ => false
  end.

(** The most recent [relay.on()] or [relay.off()] of a history. *)
Definition last_pin_write (t : list event) : option event :=
  fold_left (fun acc e => if is_pin_write e then Some e else acc) t None.

(** The body of [GET /lamp/flash]'s answer. *)
Definition flashing (duration flashes : Z) : dict :=
  [("status", PyStr "flashing");
   ("duration", PyInt duration);
   ("flashes", PyInt flashes)].


(** Number of [relay.on()] calls in a history. *)
Definition pin_highs (t : list event) : nat :=
  List.length (filter (fun e => match e with On => true | _ => false end) t).

(** Number of [relay.off()] calls in a history. *)
Definition pin_lows (t : list event) : nat :=
  List.length (filter (fun e => match e with Off => true | _ => false end) t).


(** ** Loops and ranges *)

Lemma range_nonpos (n : Z) : n <= 0 -> range n = [].
Proof.
  intros Hn. unfold range.
  replace (Z.to_nat n) with O by lia. reflexivity.
Qed.

Lemma length_range (n : Z) : length (range n) = Z.to_nat n.
Proof.
  unfold range. now rewrite length_map, length_seq.
Qed.

Lemma range_pos_cons (n : Z) : 1 <= n -> exists x xs, range n = x :: xs.
Proof.
  intros Hn. destruct (range n) as [|x xs] eqn:E.
  - apply (f_equal (@length Z)) in E. rewrite length_range in E.
    simpl in E. lia.
  - now exists x, xs.
Qed.

Lemma for_nil {A : Type} (body : A -> M unit) (s : state) :
  for_ [] body s = (Ok tt, s).
Proof. reflexivity. Qed.

Lemma state_eta (s : state) : mkState (relay s) (trace s) (bg s) = s.
Proof. now destruct s. Qed.

Lemma last_pin_write_app (t u : list event) :
  last_pin_write (t ++ u) =
  fold_left (fun acc e => if is_pin_write e then Some e else acc) u
            (last_pin_write t).
Proof. unfold last_pin_write. apply fold_left_app. Qed.

Lemma last_pin_write_cycle (t : list event) (secs : Q) :
  last_pin_write (t ++ cycle secs) = Some Off.
Proof. now rewrite last_pin_write_app. Qed.

Section Flash.

Variable time_sleep : Q -> option exn.

Lemma sleep_ok (secs : Q) (s : state) :
  time_sleep secs = None ->
  sleep time_sleep secs s = (Ok tt, mkState (relay s) (trace s ++ [Sleep secs]) (bg s)).
Proof. intros H. unfold sleep. now rewrite H. Qed.

(** An iteration whose sleeps are accepted. *)
Lemma flash_cycle_ok (duration flashes : Z) (s : state) :
  flashes <> 0 ->
  time_sleep (half_cycle duration flashes) = None ->
  flash_cycle time_sleep duration flashes s =
  (Ok tt, mkState false (trace s ++ cycle (half_cycle duration flashes)) (bg s)).
Proof.
  intros Hf Hs.
  unfold flash_cycle, bind, relay_on, relay_off, truediv.
  destruct (flashes * 2 =? 0) eqn:E; [lia|].
  unfold ret. fold (half_cycle duration flashes).
  rewrite !sleep_ok by assumption. cbn [relay trace bg].
  now rewrite <- !app_assoc.
Qed.

(** An iteration that returns has written on, slept, written off, slept. *)
Lemma flash_cycle_inv (duration flashes : Z) (s s' : state) :
  flash_cycle time_sleep duration flashes s = (Ok tt, s') ->
  s' = mkState false (trace s ++ cycle (half_cycle duration flashes)) (bg s).
Proof.
  unfold flash_cycle, bind, relay_on, relay_off, truediv.
  destruct (flashes * 2 =? 0); [discriminate|].
  unfold ret, sleep, raise. fold (half_cycle duration flashes).
  destruct (time_sleep (half_cycle duration flashes)); [discriminate|].
  cbn [relay trace bg]. intros H. injection H as <-.
  now rewrite <- !app_assoc.
Qed.

Lemma for_flash_cycle_ok {A : Type} (xs : list A) (duration flashes : Z) :
  flashes <> 0 ->
  time_sleep (half_cycle duration flashes) = None ->
  forall s,
    for_ xs (fun _ => flash_cycle time_sleep duration flashes) s =
    (Ok tt, flashed (length xs) (half_cycle duration flashes) s).
Proof.
  intros Hf Hs. induction xs as [|x xs IH]; intros s.
  - cbn. unfold ret, flashed, cycles. cbn. now rewrite app_nil_r, state_eta.
  - cbn [for_]. unfold bind. rewrite flash_cycle_ok by assumption.
    rewrite IH. unfold flashed, cycles. cbn [length repeat concat relay trace bg].
    rewrite <- app_assoc. now destruct (length xs).
Qed.

Lemma for_flash_cycle_inv {A : Type} (xs : list A) (duration flashes : Z) :
  xs <> [] ->
  forall s s',
    for_ xs (fun _ => flash_cycle time_sleep duration flashes) s = (Ok tt, s') ->
    relay s' = false /\ last_pin_write (trace s') = Some Off.
Proof.
  induction xs as [|x xs IH]; intros Hne s s' Hrun; [congruence|].
  cbn [for_] in Hrun. unfold bind in Hrun.
  destruct (flash_cycle time_sleep duration flashes s) as [[[]|e] s1] eqn:E;
    [|discriminate].
  apply flash_cycle_inv in E.
  destruct xs as [|y ys].
  - cbn in Hrun. injection Hrun as <-. subst s1. cbn [relay trace].
    split; [reflexivity|apply last_pin_write_cycle].
  - apply (IH ltac:(discriminate) s1 s' Hrun).
Qed.

(** What [_flash] does when the loop is entered and the sleeps are
    accepted, and what it does when the loop is not entered. *)
Lemma flash_run (duration flashes : Z) (s : state) :
  flashes <= 0 \/ time_sleep (half_cycle duration flashes) = None ->
  _flash time_sleep duration flashes s =
  (Ok tt, flashed (Z.to_nat flashes) (half_cycle duration flashes) s).
Proof.
  intros [Hf|Hs]; unfold _flash.
  - rewrite range_nonpos by assumption. replace (Z.to_nat flashes) with O by lia.
    cbn. unfold ret, flashed, cycles. cbn. now rewrite app_nil_r, state_eta.
  - destruct (Z.eq_dec flashes 0) as [->|Hne].
    + cbn. unfold ret, flashed, cycles. cbn. now rewrite app_nil_r, state_eta.
    + rewrite for_flash_cycle_ok by assumption. now rewrite length_range.
Qed.

End Flash.

(** ** The routes *)

Section Routes.

Variable time_sleep : Q -> option exn.

(** C2. Every request to [/lamp/on] issues one pin-on write, leaves the pin
    high, and is answered with exactly [{"status": "on"}]. *)
Theorem lamp_on_spec (s : state) :
  lamp_on s = (Ok [("status", PyStr "on")],
               mkState true (trace s ++ [On]) (bg s))
  /\ serve time_sleep GET_lamp_on s =
     (mkResponse 200 (Some [("status", PyStr "on")]),
      (Ok tt, mkState true (trace s ++ [On]) [])).
Proof. split; reflexivity. Qed.

(** C3. Every request to [/lamp/off] issues one pin-off write, leaves the
    pin low, and is answered with exactly [{"status": "off"}]. *)
Theorem lamp_off_spec (s : state) :
  lamp_off s = (Ok [("status", PyStr "off")],
                mkState false (trace s ++ [Off]) (bg s))
  /\ serve time_sleep GET_lamp_off s =
     (mkResponse 200 (Some [("status", PyStr "off")]),
      (Ok tt, mkState false (trace s ++ [Off]) [])).
Proof. split; reflexivity. Qed.

(** C7. Every request to [/health] is answered with exactly [{"ok": true}]
    whatever the pin state, and neither the pin nor the history of writes
    and sleeps changes. *)
Theorem health_spec (s : state) :
  health s = (Ok [("ok", PyBool true)], s)
  /\ serve time_sleep GET_health s =
     (mkResponse 200 (Some [("ok", PyBool true)]),
      (Ok tt, mkState (relay s) (trace s) [])).
Proof. split; reflexivity. Qed.

(** C8. Two requests to [/lamp/on] in a row: the pin is high after the
    first, it is in the same state after the second, and both are answered
    with the same [{"status": "on"}]. *)
Theorem lamp_on_idempotent (s : state) :
  let (r1, o1) := serve time_sleep GET_lamp_on s in
  let (r2, o2) := serve time_sleep GET_lamp_on (snd o1) in
  relay (snd o1) = true
  /\ relay (snd o2) = relay (snd o1)
  /\ r2 = r1
  /\ r1 = mkResponse 200 (Some [("status", PyStr "on")]).
Proof. cbn. repeat split. Qed.

(** C9. The handler of [/lamp/flash] writes no pin and does not sleep: when
    the response is produced the pin and the history are those of before the
    request and the only change is the task added to the background tasks;
    everything the request does to the pin is what [_flash] does afterwards
    from that state. *)
Theorem lamp_flash_defers (duration flashes : Z) (s : state) :
  lamp_flash duration flashes s =
    (Ok (flashing duration flashes),
     mkState (relay s) (trace s) (bg s ++ [Flash duration flashes]))
  /\ handle (GET_lamp_flash (Some duration) (Some flashes)) s =
     (mkResponse 200 (Some (flashing duration flashes)),
      mkState (relay s) (trace s) [Flash duration flashes])
  /\ serve time_sleep (GET_lamp_flash (Some duration) (Some flashes)) s =
     (mkResponse 200 (Some (flashing duration flashes)),
      _flash time_sleep duration flashes
        (mkState (relay s) (trace s) [Flash duration flashes])).
Proof.
  repeat split.
  unfold serve, handle, background. cbn. unfold bind.
  now destruct (_flash time_sleep duration flashes _) as [[[]|e] s'].
Qed.

(** C1, as amended. When the sleep primitive accepts the interval
    [duration / (flashes * 2)], or [flashes <= 0], a flash request is
    answered with [{"status": "flashing", "duration": D, "flashes": F}] and
    the scheduled work then completes after exactly [max 0 F] iterations of
    on, sleep, off, sleep, each sleep being of that interval, which is the
    rational [D / (F * 2)]. *)
Theorem flash_request_schedule (duration flashes : Z) (s : state) :
  flashes <= 0 \/ time_sleep (half_cycle duration flashes) = None ->
  serve time_sleep (GET_lamp_flash (Some duration) (Some flashes)) s =
    (mkResponse 200 (Some (flashing duration flashes)),
     (Ok tt, mkState (match Z.to_nat flashes with O => relay s | S _ => false end)
                     (trace s ++
                      cycles (Z.to_nat flashes) (half_cycle duration flashes))
                     [Flash duration flashes]))
  /\ Z.of_nat (Z.to_nat flashes) = Z.max 0 flashes
  /\ (flashes <> 0 ->
      (inject_Z (flashes * 2) * half_cycle duration flashes ==
       inject_Z duration)%Q).
Proof.
  intros H. split; [|split].
  - destruct (lamp_flash_defers duration flashes s) as (_ & _ & ->).
    now rewrite flash_run.
  - lia.
  - intros Hf. unfold half_cycle. apply Qmult_div_r.
    unfold Qeq. cbn. lia.
Qed.

(** C4, as amended. With [flashes = 0] the expression
    [duration / (flashes * 2)] raises [ZeroDivisionError] wherever it is
    evaluated, but the scheduled work does not evaluate it: it returns
    normally and leaves the state as it was. *)
Theorem flash_zero_no_fault (duration : Z) (s : state) :
  truediv duration (0 * 2) s = (Raise ZeroDivisionError, s)
  /\ _flash time_sleep duration 0 s = (Ok tt, s).
Proof. split; reflexivity. Qed.

(** C5, as amended. A request to [/lamp/flash] with [flashes = 0] raises
    nothing in the handler or in the scheduled work; it is answered with the
    ordinary 200 response [{"status": "flashing", "duration": D,
    "flashes": 0}], which is not a client error, and no pin write or sleep
    follows. *)
Theorem flash_zero_request (duration : option Z) (s : state) :
  serve time_sleep (GET_lamp_flash duration (Some 0)) s =
    (mkResponse 200 (Some (flashing (param 5 duration) 0)),
     (Ok tt, mkState (relay s) (trace s) [Flash (param 5 duration) 0]))
  /\ is_client_error
       (fst (serve time_sleep (GET_lamp_flash duration (Some 0)) s)) = false.
Proof. split; reflexivity. Qed.

(** C6. With [flashes <= 0] the range is empty, so the loop runs no
    iteration whatever its body is; the scheduled work returns normally with
    the state untouched: no pin write, no sleep, and no
    [ZeroDivisionError]. *)
Theorem flash_nonpositive_noop
    (duration flashes : Z) (body : Z -> M unit) (s : state) :
  flashes <= 0 ->
  range flashes = []
  /\ for_ (range flashes) body s = (Ok tt, s)
  /\ _flash time_sleep duration flashes s = (Ok tt, s)
  /\ fst (_flash time_sleep duration flashes s) <> Raise ZeroDivisionError.
Proof.
  intros H. unfold _flash. rewrite (range_nonpos flashes H).
  repeat split. discriminate.
Qed.

(** C10. With [flashes >= 1], a run of the scheduled work that completes
    ends with the pin low, and the last pin write of the history is a
    pin-off, whatever the duration and the state before. *)
Theorem flash_ends_low (duration flashes : Z) (s s' : state) :
  1 <= flashes ->
  _flash time_sleep duration flashes s = (Ok tt, s') ->
  relay s' = false /\ last_pin_write (trace s') = Some Off.
Proof.
  intros Hf Hrun. unfold _flash in Hrun.
  destruct (range_pos_cons flashes Hf) as (x & xs & E). rewrite E in Hrun.
  apply (for_flash_cycle_inv time_sleep (x :: xs) duration flashes
           ltac:(discriminate) s s' Hrun).
Qed.

End Routes.

(** ** Concrete runs under CPython's [time.sleep] *)

(** [/lamp/flash?duration=4&flashes=2] from the initial state: two
    iterations with sleeps of [4 / 4] seconds. *)
Lemma flash_request_schedule_witness :
  (2 <= 0 \/ cpython_sleep (half_cycle 4 2) = None)
  /\ serve cpython_sleep (GET_lamp_flash (Some 4) (Some 2)) boot =
     (mkResponse 200 (Some (flashing 4 2)),
      (Ok tt, mkState false
                (cycle (half_cycle 4 2) ++ cycle (half_cycle 4 2))
                [Flash 4 2]))
  /\ Z.of_nat 2 = 2
  /\ (2 <> 0 -> (inject_Z 4 * half_cycle 4 2 == inject_Z 4)%Q).
Proof.
  split; [right; reflexivity|].
  apply (flash_request_schedule cpython_sleep 4 2 boot). right. reflexivity.
Defined.

(** C1 as stated fails: with [duration = -1] and [flashes = 1] the first
    sleep is refused, so the work stops after a single pin-on write instead
    of performing one full iteration. *)
Lemma flash_negative_duration_stops :
  serve cpython_sleep (GET_lamp_flash (Some (-1)) (Some 1)) boot =
    (mkResponse 200 (Some (flashing (-1) 1)),
     (Raise ValueError, mkState true [On] [Flash (-1) 1]))
  /\ [On] <> cycles 1 (half_cycle (-1) 1).
Proof. split; [reflexivity|discriminate]. Qed.

(** C4 as stated fails: with [flashes = 0] the scheduled work returns
    normally, it does not raise [ZeroDivisionError]. *)
Lemma flash_zero_returns :
  _flash cpython_sleep 5 0 boot = (Ok tt, boot)
  /\ fst (_flash cpython_sleep 5 0 boot) <> Raise ZeroDivisionError.
Proof. split; [reflexivity|discriminate]. Qed.

(** C5 as stated fails: [/lamp/flash?flashes=0] is answered with 200, not
    with a client error. *)
Lemma flash_zero_is_accepted :
  fst (serve cpython_sleep (GET_lamp_flash None (Some 0)) boot) =
    mkResponse 200 (Some (flashing 5 0))
  /\ is_client_error
       (fst (serve cpython_sleep (GET_lamp_flash None (Some 0)) boot)) = false.
Proof. split; reflexivity. Qed.

(** A loop over [range(-3)] never enters a body that would always fault. *)
Lemma flash_nonpositive_noop_witness :
  -3 <= 0
  /\ range (-3) = []
  /\ for_ (range (-3)) (fun _ => raise ZeroDivisionError) boot = (Ok tt, boot)
  /\ _flash cpython_sleep 5 (-3) boot = (Ok tt, boot)
  /\ fst (_flash cpython_sleep 5 (-3) boot) <> Raise ZeroDivisionError.
Proof.
  split; [lia|].
  apply (flash_nonpositive_noop cpython_sleep 5 (-3)
           (fun _ => raise ZeroDivisionError) boot).
  lia.
Defined.

(** Two flashes over four seconds, starting with the lamp on. *)
Lemma flash_ends_low_witness :
  1 <= 2
  /\ _flash cpython_sleep 4 2 (mkState true [] []) =
     (Ok tt, mkState false (cycles 2 (half_cycle 4 2)) [])
  /\ relay (mkState false (cycles 2 (half_cycle 4 2)) []) = false
  /\ last_pin_write (trace (mkState false (cycles 2 (half_cycle 4 2)) [])) =
     Some Off.
Proof.
  split; [lia|]. split; [reflexivity|].
  apply (flash_ends_low cpython_sleep 4 2 (mkState true [] [])
           (mkState false (cycles 2 (half_cycle 4 2)) [])).
  - lia.
  - reflexivity.
Defined.

(** ** More on the flash sequence *)




Lemma pin_highs_app (t u : list event) :
  pin_highs (t ++ u) = (pin_highs t + pin_highs u)%nat.
Proof. unfold pin_highs. now rewrite filter_app, length_app. Qed.

Lemma pin_lows_app (t u : list event) :
  pin_lows (t ++ u) = (pin_lows t + pin_lows u)%nat.
Proof. unfold pin_lows. now rewrite filter_app, length_app. Qed.

Lemma pin_highs_cycles (n : nat) (secs : Q) : pin_highs (cycles n secs) = n.
Proof.
  induction n as [|n IH]; [reflexivity|].
  change (cycles (S n) secs) with (cycle secs ++ cycles n secs)%list.
  rewrite pin_highs_app, IH. reflexivity.
Qed.

Lemma pin_lows_cycles (n : nat) (secs : Q) : pin_lows (cycles n secs) = n.
Proof.
  induction n as [|n IH]; [reflexivity|].
  change (cycles (S n) secs) with (cycle secs ++ cycles n secs)%list.
  rewrite pin_lows_app, IH. reflexivity.
Qed.






Section Outcomes.

Variable time_sleep : Q -> option exn.

(** An iteration whose first sleep is refused stops right after the
    pin-on write. *)
Lemma flash_cycle_refused (duration flashes : Z) (e : exn) (s : state) :
  flashes <> 0 ->
  time_sleep (half_cycle duration flashes) = Some e ->
  flash_cycle time_sleep duration flashes s =
  (Raise e, mkState true (trace s ++ [On]) (bg s)).
Proof.
  intros Hf Hs.
  unfold flash_cycle, bind, relay_on, relay_off, truediv.
  destruct (flashes * 2 =? 0) eqn:E; [lia|].
  unfold ret, sleep. fold (half_cycle duration flashes).
  now rewrite Hs.
Qed.

Lemma flash_refused (duration flashes : Z) (e : exn) (s : state) :
  1 <= flashes ->
  time_sleep (half_cycle duration flashes) = Some e ->
  _flash time_sleep duration flashes s =
  (Raise e, mkState true (trace s ++ [On]) (bg s)).
Proof.
  intros Hf Hs. unfold _flash.
  destruct (range_pos_cons flashes Hf) as (x & xs & ->).
  cbn [for_]. unfold bind.
  now rewrite (flash_cycle_refused duration flashes e s) by (assumption || lia).
Qed.

(** The two ways a run of [_flash] can end. *)
Lemma flash_outcome (duration flashes : Z) (s : state) :
  _flash time_sleep duration flashes s =
    (Ok tt, flashed (Z.to_nat flashes) (half_cycle duration flashes) s)
  \/ exists e,
       1 <= flashes
       /\ time_sleep (half_cycle duration flashes) = Some e
       /\ _flash time_sleep duration flashes s =
          (Raise e, mkState true (trace s ++ [On]) (bg s)).
Proof.
  destruct (Z_le_gt_dec flashes 0) as [Hf|Hf].
  - left. apply flash_run. now left.
  - destruct (time_sleep (half_cycle duration flashes)) as [e|] eqn:Hs.
    + right. exists e. repeat split; [lia|]. apply flash_refused; [lia|assumption].
    + left. apply flash_run. now right.
Qed.

Lemma flash_completed (duration flashes : Z) (s s' : state) :
  _flash time_sleep duration flashes s = (Ok tt, s') ->
  s' = flashed (Z.to_nat flashes) (half_cycle duration flashes) s.
Proof.
  intros Hrun.
  destruct (flash_outcome duration flashes s) as [H|(e & _ & _ & H)];
    rewrite H in Hrun; [now injection Hrun as <-|discriminate].
Qed.

End Outcomes.

Section FlashFacts.

Variable time_sleep : Q -> option exn.


(** X2. A run of [_flash] that completes has written the pin high
    [max 0 flashes] times and low as many times. *)
Theorem flash_toggle_count (duration flashes : Z) (s s' : state) :
  _flash time_sleep duration flashes s = (Ok tt, s') ->
  Z.of_nat (pin_highs (trace s')) =
    Z.of_nat (pin_highs (trace s)) + Z.max 0 flashes
  /\ Z.of_nat (pin_lows (trace s')) =
     Z.of_nat (pin_lows (trace s)) + Z.max 0 flashes.
Proof.
  intros Hrun. apply flash_completed in Hrun. subst s'.
  unfold flashed. cbn [trace].
  rewrite pin_highs_app, pin_lows_app, pin_highs_cycles, pin_lows_cycles.
  lia.
Qed.


(** X5. A flash request with [flashes >= 1] whose interval the sleep
    primitive refuses is still answered with the 200 flashing response; the
    scheduled work then writes the pin high once and raises what [sleep]
    raised, so the lamp stays on. *)
Theorem flash_request_sleep_refused
    (duration flashes : Z) (e : exn) (s : state) :
  1 <= flashes ->
  time_sleep (half_cycle duration flashes) = Some e ->
  serve time_sleep (GET_lamp_flash (Some duration) (Some flashes)) s =
    (mkResponse 200 (Some (flashing duration flashes)),
     (Raise e, mkState true (trace s ++ [On]) [Flash duration flashes])).
Proof.
  intros Hf Hs. unfold serve, handle, background. cbn. unfold bind.
  now rewrite (flash_refused time_sleep duration flashes e _ Hf Hs).
Qed.


(** X9. The response to a request is fixed by the route and its query
    parameters: it depends neither on the state of the pin or its history
    nor on how [sleep] behaves, and its status is 200. *)
Theorem response_independent
    (time_sleep' : Q -> option exn) (r : request) (s s' : state) :
  fst (serve time_sleep r s) = fst (serve time_sleep' r s')
  /\ status_code (fst (serve time_sleep r s)) = 200.
Proof. destruct r; split; reflexivity. Qed.


End FlashFacts.

(** X4. Under CPython's [time.sleep] the scheduled flash work never raises
    [ZeroDivisionError], whatever [duration] and [flashes] are. *)
Theorem cpython_flash_never_divides_by_zero
    (duration flashes : Z) (s : state) :
  fst (_flash cpython_sleep duration flashes s) <> Raise ZeroDivisionError.
Proof.
  destruct (flash_outcome cpython_sleep duration flashes s)
    as [H|(e & _ & Hs & H)]; rewrite H; cbn [fst]; [discriminate|].
  unfold cpython_sleep in Hs.
  destruct (Qle_bool 0 (half_cycle duration flashes)); [discriminate|].
  injection Hs as <-. discriminate.
Qed.



(** ** Concrete runs for the flash facts *)


(** Three flashes after an earlier [/lamp/on]: four pin-on writes and three
    pin-off writes in the history. *)
Lemma flash_toggle_count_witness :
  _flash cpython_sleep 3 3 (mkState true [On] []) =
    (Ok tt, flashed 3 (half_cycle 3 3) (mkState true [On] []))
  /\ Z.of_nat (pin_highs (trace (flashed 3 (half_cycle 3 3)
                                   (mkState true [On] [])))) =
     Z.of_nat (pin_highs [On]) + Z.max 0 3
  /\ Z.of_nat (pin_lows (trace (flashed 3 (half_cycle 3 3)
                                  (mkState true [On] [])))) =
     Z.of_nat (pin_lows [On]) + Z.max 0 3.
Proof.
  split; [reflexivity|].
  apply (flash_toggle_count cpython_sleep 3 3 (mkState true [On] [])
           (flashed 3 (half_cycle 3 3) (mkState true [On] []))).
  reflexivity.
Defined.


(** [/lamp/flash?duration=-5] with the default five flashes. *)
Lemma flash_request_sleep_refused_witness :
  1 <= 5
  /\ cpython_sleep (half_cycle (-5) 5) = Some ValueError
  /\ serve cpython_sleep (GET_lamp_flash (Some (-5)) (Some 5)) boot =
     (mkResponse 200 (Some (flashing (-5) 5)),
      (Raise ValueError, mkState true [On] [Flash (-5) 5])).
Proof.
  split; [lia|]. split; [reflexivity|].
  apply (flash_request_sleep_refused cpython_sleep (-5) 5 ValueError boot);
    [lia|reflexivity].
Defined.




